(** * Real-estate listing metadata extractor: a verification development

    A shallow embedding of [extractor.py] (the sitemap extraction pipeline,
    its output sink and the run-control entry points) and the properties
    proved about it.

    Python [str] values are modelled as [string], a sequence of code points
    below 256; on that range the character classes used by the program
    ([\d], [[A-Z]], [.]) are exactly the ones defined here. *)

From Stdlib Require Import ZArith Lia Ascii.
From stdpp Require Import base option list strings pretty gmap.

(** ** Python string primitives *)

Module PyStr.

Definition eqb_ascii (a b : ascii) : bool := Ascii.eqb a b.

Fixpoint all_chars (p : ascii → bool) (s : string) : bool :=
  match s with
  | "" => true
  | String a s' => p a && all_chars p s'
  end.

Fixpoint strlen (s : string) : nat :=
  match s with
  | "" => O
  | String _ s' => S (strlen s')
  end.

(** [s[:n]] *)
Fixpoint take_str (n : nat) (s : string) : string :=
  match n, s with
  | S n', String a s' => String a (take_str n' s')
  | _, _ => ""
  end.

(** [s[n:]] *)
Fixpoint drop_str (n : nat) (s : string) : string :=
  match n, s with
  | S n', String _ s' => drop_str n' s'
  | _, _ => s
  end.

(** [s.startswith(p)] *)
Fixpoint startswith (p s : string) : bool :=
  match p, s with
  | "", _ => true
  | String a p', String b s' => eqb_ascii a b && startswith p' s'
  | _, _ => false
  end.

(** [c in s] for a one-character [c] *)
Fixpoint contains (c : ascii) (s : string) : bool :=
  match s with
  | "" => false
  | String a s' => eqb_ascii a c || contains c s'
  end.

(** [s.lstrip(chars)], the stripped set given as a predicate *)
Fixpoint lstrip (p : ascii → bool) (s : string) : string :=
  match s with
  | String a s' => if p a then lstrip p s' else s
  | "" => ""
  end.

(** [s.rstrip(chars)] *)
Fixpoint rstrip (p : ascii → bool) (s : string) : string :=
  match s with
  | "" => ""
  | String a s' =>
      match rstrip p s' with
      | "" => if p a then "" else String a ""
      | r => String a r
      end
  end.

(** [s.strip(chars)] *)
Definition strip (p : ascii → bool) (s : string) : string :=
  rstrip p (lstrip p s).

(** [s.split(sep)] for a one-character separator: never empty, an empty
    string gives [['']]. *)
Fixpoint split (sep : ascii) (s : string) : list string :=
  match s with
  | "" => [""]
  | String a s' =>
      if eqb_ascii a sep then "" :: split sep s'
      else match split sep s' with
           | w :: ws => String a w :: ws
           | [] => [String a ""]
           end
  end.

(** [s.split(sep, 1)[0]]: the text before the first [sep] *)
Fixpoint before (sep : ascii) (s : string) : string :=
  match s with
  | "" => ""
  | String a s' => if eqb_ascii a sep then "" else String a (before sep s')
  end.

(** [sep.join(l)] *)
Fixpoint join (sep : string) (l : list string) : string :=
  match l with
  | [] => ""
  | [w] => w
  | w :: ws => w +:+ sep +:+ join sep ws
  end.

(** [s.replace(old, new)] for a non-empty [old]: occurrences are replaced
    left to right without overlap. [skip] counts the characters of a
    matched occurrence still to be dropped. *)
Fixpoint replace_go (old new : string) (skip : nat) (s : string) : string :=
  match s with
  | "" => ""
  | String a s' =>
      match skip with
      | S k => replace_go old new k s'
      | O =>
          if startswith old s
          then new +:+ replace_go old new (strlen old - 1) s'
          else String a (replace_go old new O s')
      end
  end.

Definition replace (old new s : string) : string := replace_go old new O s.

(** [s.find(c)] and [s.find(c, start)], [None] for -1 *)
Fixpoint find (c : ascii) (s : string) : option nat :=
  match s with
  | "" => None
  | String a s' =>
      if eqb_ascii a c then Some O else S <$> find c s'
  end.

Definition find_from (c : ascii) (start : nat) (s : string) : option nat :=
  (λ i, (start + i)%nat) <$> find c (drop_str start s).

(** [s.rfind(c)] *)
Fixpoint rfind (c : ascii) (s : string) : option nat :=
  match s with
  | "" => None
  | String a s' =>
      match rfind c s' with
      | Some i => Some (S i)
      | None => if eqb_ascii a c then Some O else None
      end
  end.

(** [l[-n:]] and [l[:-n]] on lists *)
Definition last_n {A} (n : nat) (l : list A) : list A :=
  drop (length l - n) l.
Definition but_last_n {A} (n : nat) (l : list A) : list A :=
  take (length l - n) l.

Definition is_digit (a : ascii) : bool :=
  let n := N_of_ascii a in (48 <=? n)%N && (n <=? 57)%N.
Definition is_upper (a : ascii) : bool :=
  let n := N_of_ascii a in (65 <=? n)%N && (n <=? 90)%N.
Definition is_lower (a : ascii) : bool :=
  let n := N_of_ascii a in (97 <=? n)%N && (n <=? 122)%N.
Definition is_newline (a : ascii) : bool := eqb_ascii a "010"%char.

Definition to_lower (a : ascii) : ascii :=
  if is_upper a then ascii_of_N (N_of_ascii a + 32) else a.

(** [int(s)] for a string of decimal digits *)
Fixpoint int_go (acc : Z) (s : string) : Z :=
  match s with
  | "" => acc
  | String a s' => int_go (10 * acc + (Z.of_N (N_of_ascii a) - 48))%Z s'
  end.
Definition int_of_digits (s : string) : Z := int_go 0%Z s.

Arguments contains c%_char s.
Arguments split sep%_char s.
Arguments before sep%_char s.
Arguments find c%_char s.
Arguments find_from c%_char start s.
Arguments rfind c%_char s.
Arguments eqb_ascii a%_char b%_char.

End PyStr.

(** ** Regular expressions ([re]), as far as the program's patterns go

    A backtracking matcher in continuation-passing style: alternation is
    ordered, [+?] tries the continuation before consuming more, groups are
    recorded in closing order. Positions are absolute, so that [^] can
    test for the start of the subject. *)

Module Re.
Import PyStr.

Inductive regex : Type :=
| Eps
| Chr (c : ascii)               (* a literal character *)
| ChrI (c : ascii)              (* a literal under IGNORECASE *)
| Cls (p : ascii → bool)        (* a character class *)
| Cat (r1 r2 : regex)
| Alt (r1 r2 : regex)
| Grp (r : regex)               (* a capturing group *)
| LazyPlus (p : ascii → bool)   (* [c+?] for a one-character class [c] *)
| Bol                           (* [^] *)
| Eol.                          (* [$] *)

Arguments Chr c%_char.
Arguments ChrI c%_char.

Definition seq (l : list regex) : regex := foldr Cat Eps l.

(** [r{n}] *)
Fixpoint Rep (n : nat) (r : regex) : regex :=
  match n with
  | O => Eps
  | S n' => Cat r (Rep n' r)
  end.

(** [.] without DOTALL *)
Definition dot (a : ascii) : bool := negb (is_newline a).
(** [\d] *)
Definition digit : ascii → bool := is_digit.
(** [[lo-hi]] *)
Definition range (lo hi : ascii) (a : ascii) : bool :=
  (N_of_ascii lo <=? N_of_ascii a)%N && (N_of_ascii a <=? N_of_ascii hi)%N.
Arguments range lo%_char hi%_char a.

Section Matcher.
Context {R : Type}.

Fixpoint lazy_plus (p : ascii → bool) (pos : nat) (s : string)
    (k : nat → string → option R) : option R :=
  match s with
  | "" => None
  | String a s' =>
      if p a then
        match k (S pos) s' with
        | Some x => Some x
        | None => lazy_plus p (S pos) s' k
        end
      else None
  end.

Fixpoint run (r : regex) (pos : nat) (s : string) (gs : list string)
    (k : nat → string → list string → option R) : option R :=
  match r with
  | Eps => k pos s gs
  | Chr c =>
      match s with
      | String a s' => if eqb_ascii a c then k (S pos) s' gs else None
      | "" => None
      end
  | ChrI c =>
      match s with
      | String a s' =>
          if eqb_ascii (to_lower a) (to_lower c) then k (S pos) s' gs
          else None
      | "" => None
      end
  | Cls p =>
      match s with
      | String a s' => if p a then k (S pos) s' gs else None
      | "" => None
      end
  | Cat r1 r2 => run r1 pos s gs (λ pos' s' gs', run r2 pos' s' gs' k)
  | Alt r1 r2 =>
      match run r1 pos s gs k with
      | Some x => Some x
      | None => run r2 pos s gs k
      end
  | Grp r1 =>
      run r1 pos s gs
        (λ pos' s' gs', k pos' s' (gs' ++ [take_str (pos' - pos) s]))
  | LazyPlus p => lazy_plus p pos s (λ pos' s', k pos' s' gs)
  | Bol => match pos with O => k pos s gs | S _ => None end
  | Eol =>
      match s with
      | "" => k pos s gs
      | String a "" => if is_newline a then k pos s gs else None
      | _ => None
      end
  end.
End Matcher.

(** [re.match(r, s)]: the end position and the groups of a match at the
    start of [s] *)
Definition re_match (r : regex) (s : string) : option (nat * list string) :=
  run r O s [] (λ pos _ gs, Some (pos, gs)).

(** [re.search(r, s)]: the leftmost match, tried at every offset *)
Fixpoint search_from (r : regex) (pos : nat) (s : string)
    : option (list string) :=
  match run r pos s [] (λ _ _ gs, Some gs) with
  | Some gs => Some gs
  | None =>
      match s with
      | "" => None
      | String _ s' => search_from r (S pos) s'
      end
  end.

Definition re_search (r : regex) (s : string) : option (list string) :=
  search_from r O s.

End Re.

(** ** UrlDecoder: [urlparse] and [parse_listing_url] *)

Module UrlDecoder.
Import PyStr Re.

Record parsed : Type := mk_parsed {
  property_id : string;
  address : string;
  city : string;
  state : string;
  zipcode : string
}.

Global Instance parsed_eq_dec : EqDecision parsed.
Proof. solve_decision. Defined.

Section Urllib.
(** [urllib.parse._check_bracketed_netloc]: whether a network location
    holding both brackets is accepted. It validates an IP literal with
    the [ipaddress] module and is left as a parameter. *)
Variable check_bracketed_netloc : string → bool.

Definition c0_control_or_space (a : ascii) : bool :=
  (N_of_ascii a <=? 32)%N.

Definition unsafe_url_byte (a : ascii) : bool :=
  eqb_ascii a "009" || eqb_ascii a "013" || eqb_ascii a "010".

Fixpoint remove_chars (p : ascii → bool) (s : string) : string :=
  match s with
  | "" => ""
  | String a s' =>
      if p a then remove_chars p s' else String a (remove_chars p s')
  end.

Definition scheme_char (a : ascii) : bool :=
  is_lower a || is_upper a || is_digit a
  || eqb_ascii a "+" || eqb_ascii a "-" || eqb_ascii a ".".

Definition is_ascii_alpha (a : ascii) : bool := is_lower a || is_upper a.

Fixpoint lower (s : string) : string :=
  match s with
  | "" => ""
  | String a s' => String (to_lower a) (lower s')
  end.

Definition uses_params : list string :=
  [""; "ftp"; "hdl"; "prospero"; "http"; "imap"; "https"; "shttp";
   "rtsp"; "rtspu"; "sip"; "sips"; "mms"; "sftp"; "tel"].

(** the scheme split of [urlsplit]: [(scheme, rest)] *)
Definition split_scheme (url : string) : string * string :=
  match find ":" url, url with
  | Some (S i'), String a _ =>
      let i := S i' in
      if is_ascii_alpha a && all_chars scheme_char (take_str i url)
      then (lower (take_str i url), drop_str (S i) url)
      else ("", url)
  | _, _ => ("", url)
  end.

(** [_splitnetloc(url, 2)] *)
Definition splitnetloc (url : string) : string * string :=
  let upd (c : ascii) (delim : nat) :=
    match find_from c 2 url with
    | Some w => Nat.min delim w
    | None => delim
    end in
  let delim := upd "#"%char (upd "?"%char (upd "/"%char (strlen url))) in
  (take_str (delim - 2) (drop_str 2 url), drop_str delim url).

(** [urlsplit(url)]: [(scheme, path)], or [None] when it raises
    [ValueError]. (On code points below 256 [_checknetloc] never
    raises.) *)
Definition urlsplit (url : string) : option (string * string) :=
  let url := lstrip c0_control_or_space url in
  let url := remove_chars unsafe_url_byte url in
  let '(scheme, url) := split_scheme url in
  nl ← (if startswith "//" url then
          let '(netloc, rest) := splitnetloc url in
          let lb := contains "[" netloc in
          let rb := contains "]" netloc in
          if (lb && negb rb) || (rb && negb lb) then None
          else if lb && rb then
            if check_bracketed_netloc netloc then Some rest else None
          else Some rest
        else Some url);
  let url := if contains "#" nl then before "#" nl else nl in
  let url := if contains "?" url then before "?" url else url in
  Some (scheme, url).

(** [_splitparams(url)[0]] *)
Definition splitparams (url : string) : string :=
  if contains "/" url then
    match rfind "/" url with
    | Some j =>
        match find_from ";" j url with
        | Some i => take_str i url
        | None => url
        end
    | None => url
    end
  else
    match find ";" url with
    | Some i => take_str i url
    | None => url
    end.

(** [urlparse(url).path] *)
Definition urlparse_path (url : string) : option string :=
  '(scheme, path) ← urlsplit url;
  if bool_decide (scheme ∈ uses_params) && contains ";" path
  then Some (splitparams path)
  else Some path.

(** [r'^(.+?)-([A-Z]{2})-(\d{5})$'] *)
Definition pattern : regex :=
  seq [Bol; Grp (LazyPlus dot); Chr "-"; Grp (Rep 2 (Cls (range "A" "Z")));
       Chr "-"; Grp (Rep 5 (Cls digit)); Eol].

(** [parse_listing_url]: [None] is the Python [None], returned when the
    URL has fewer than three segments, when the pattern does not match,
    and from the [except] branch. *)
Definition parse_listing_url (url : string) : option parsed :=
  match urlparse_path url with
  | None => None
  | Some path =>
      let parts := split "/" (strip (eqb_ascii "/") path) in
      if bool_decide (3 ≤ length parts) then
        let address_part := parts !!! 1 in
        let id_part := parts !!! 2 in
        let property_id := replace "_zpid" "" id_part in
        match re_search pattern address_part with
        | Some [address_city; state; zipcode] =>
            let parts_list := split "-" address_city in
            let '(address, city) :=
              if bool_decide (2 ≤ length parts_list)
              then (join " " (but_last_n 2 parts_list),
                    join " " (last_n 2 parts_list))
              else (replace "-" " " address_city, "") in
            Some (mk_parsed property_id address city state zipcode)
        | _ => None
        end
      else None
  end.
End Urllib.

End UrlDecoder.

(** ** TimeConverter: [datetime.strptime], [pytz] and [convert_utc_to_est] *)

Module TimeConverter.
Import PyStr Re.
Local Open Scope Z_scope.

(** A [datetime]; [tz] is [None] for a naive value and otherwise the UTC
    offset in seconds with the zone abbreviation. *)
Record datetime : Type := mk_datetime {
  year : Z; month : Z; day : Z;
  hour : Z; minute : Z; second : Z;
  tz : option (Z * string)
}.

Global Instance datetime_eq_dec : EqDecision datetime.
Proof. solve_decision. Defined.

(** *** The proleptic Gregorian calendar of the [datetime] module *)

Definition is_leap (y : Z) : bool :=
  (y mod 4 =? 0) && (negb (y mod 100 =? 0) || (y mod 400 =? 0)).

Definition days_in_month (y m : Z) : Z :=
  if (m =? 2) && is_leap y then 29
  else nth (Z.to_nat m) [0; 31; 28; 31; 30; 31; 30; 31; 31; 30; 31; 30; 31] 0.

Definition DAYS_BEFORE_MONTH : list Z :=
  [0; 0; 31; 59; 90; 120; 151; 181; 212; 243; 273; 304; 334].

Definition days_before_year (y : Z) : Z :=
  let y := y - 1 in y * 365 + y / 4 - y / 100 + y / 400.

Definition days_before_month (y m : Z) : Z :=
  nth (Z.to_nat m) DAYS_BEFORE_MONTH 0
  + (if (2 <? m) && is_leap y then 1 else 0).

Definition ymd2ord (y m d : Z) : Z :=
  days_before_year y + days_before_month y m + d.

Definition MAXORDINAL : Z := 3652059.

(** [_ord2ymd] *)
Definition ord2ymd (n : Z) : Z * Z * Z :=
  let n := n - 1 in
  let n400 := n / 146097 in let n := n mod 146097 in
  let n100 := n / 36524 in let n := n mod 36524 in
  let n4 := n / 1461 in let n := n mod 1461 in
  let n1 := n / 365 in let n := n mod 365 in
  let y := n400 * 400 + 1 + n100 * 100 + n4 * 4 + n1 in
  if (n1 =? 4) || (n100 =? 4) then (y - 1, 12, 31)
  else
    let leapyear := (n1 =? 3) && (negb (n4 =? 24) || (n100 =? 3)) in
    let m := Z.shiftr (n + 50) 5 in
    let preceding :=
      nth (Z.to_nat m) DAYS_BEFORE_MONTH 0
      + (if (2 <? m) && leapyear then 1 else 0) in
    if n <? preceding then
      let m := m - 1 in
      let preceding :=
        preceding
        - (nth (Z.to_nat m) [0; 31; 28; 31; 30; 31; 30; 31; 31; 30; 31; 30; 31] 0
           + (if (m =? 2) && leapyear then 1 else 0)) in
      (y, m, n - preceding + 1)
    else (y, m, n - preceding + 1).

(** The [datetime] constructor: [None] for the [ValueError] of a field
    out of range. *)
Definition make_datetime (y m d hh mm ss : Z) : option datetime :=
  if (1 <=? y) && (y <=? 9999) && (1 <=? m) && (m <=? 12)
     && (1 <=? d) && (d <=? days_in_month y m)
     && (0 <=? hh) && (hh <=? 23) && (0 <=? mm) && (mm <=? 59)
     && (0 <=? ss) && (ss <=? 59)
  then Some (mk_datetime y m d hh mm ss None)
  else None.

(** Seconds from 0001-01-01T00:00:00 of the wall-clock fields *)
Definition to_seconds (dt : datetime) : Z :=
  (ymd2ord (year dt) (month dt) (day dt) - 1) * 86400
  + hour dt * 3600 + minute dt * 60 + second dt.

(** [dt + timedelta(seconds=delta)] on the fields, with the time zone
    [z]; [None] for the [OverflowError] of a date out of range. *)
Definition add_seconds (dt : datetime) (delta : Z) (z : option (Z * string))
    : option datetime :=
  let total := to_seconds dt + delta in
  let days := total / 86400 + 1 in
  let rem := total mod 86400 in
  if (0 <? days) && (days <=? MAXORDINAL) then
    let '(y, m, d) := ord2ymd days in
    Some (mk_datetime y m d (rem / 3600) (rem mod 3600 / 60) (rem mod 60) z)
  else None.

(** *** [datetime.strptime(s, '%Y-%m-%dT%H:%M:%S')] *)

Definition alts (l : list regex) : regex :=
  match l with
  | [] => Eps
  | r :: rs => foldl (λ acc r', Alt acc r') r rs
  end.

(** The expression [_strptime] compiles the format to, matched with
    IGNORECASE:
    [(?P<Y>\d\d\d\d)-(?P<m>1[0-2]|0[1-9]|[1-9])-(?P<d>3[0-1]|[1-2]\d|0[1-9]|[1-9]| [1-9])T(?P<H>2[0-3]|[0-1]\d|\d):(?P<M>[0-5]\d|\d):(?P<S>6[0-1]|[0-5]\d|\d)] *)
Definition format_regex : regex :=
  seq [Grp (Rep 4 (Cls digit));
       ChrI "-";
       Grp (alts [Cat (Chr "1") (Cls (range "0" "2"));
                  Cat (Chr "0") (Cls (range "1" "9"));
                  Cls (range "1" "9")]);
       ChrI "-";
       Grp (alts [Cat (Chr "3") (Cls (range "0" "1"));
                  Cat (Cls (range "1" "2")) (Cls digit);
                  Cat (Chr "0") (Cls (range "1" "9"));
                  Cls (range "1" "9");
                  Cat (Chr " ") (Cls (range "1" "9"))]);
       ChrI "T";
       Grp (alts [Cat (Chr "2") (Cls (range "0" "3"));
                  Cat (Cls (range "0" "1")) (Cls digit);
                  Cls digit]);
       ChrI ":";
       Grp (alts [Cat (Cls (range "0" "5")) (Cls digit); Cls digit]);
       ChrI ":";
       Grp (alts [Cat (Chr "6") (Cls (range "0" "1"));
                  Cat (Cls (range "0" "5")) (Cls digit);
                  Cls digit])].

(** [int(s)] on a group of the expression: digits, after one leading
    space at most *)
Definition int (s : string) : Z :=
  int_of_digits (lstrip (eqb_ascii " ") s).

(** [None] stands for the [ValueError] of a string that does not match,
    of unconverted data after the match, and of the constructor. *)
Definition strptime (data_string : string) : option datetime :=
  match re_match format_regex data_string with
  | Some (found_end, [gY; gm; gd; gH; gM; gS]) =>
      if bool_decide (strlen data_string = found_end)
      then make_datetime (int gY) (int gm) (int gd) (int gH) (int gM) (int gS)
      else None
  | _ => None
  end.

(** *** [pytz]: a zone is its table of UTC transition times (seconds
    from the epoch 1970-01-01) and the offset and abbreviation in force
    from each *)

Definition EPOCH_SECONDS : Z := 62135596800.

Definition to_epoch (dt : datetime) : Z := to_seconds dt - EPOCH_SECONDS.

(** [bisect_right(a, x)] on a sorted list: how many entries are [≤ x] *)
Fixpoint bisect_right (a : list Z) (x : Z) : nat :=
  match a with
  | [] => O
  | t :: a' => if t <=? x then S (bisect_right a' x) else O
  end.

Definition tzinfo : Type := list (Z * (Z * string)).

(** [DstTzInfo.fromutc] *)
Definition fromutc (zone : tzinfo) (dt : datetime) : option datetime :=
  let idx := Nat.max 0 (bisect_right zone.*1 (to_epoch dt) - 1) in
  match zone.*2 !! idx with
  | Some inf => add_seconds dt inf.1 (Some inf)
  | None => None
  end.

Definition LMT : Z * string := (-17760, "LMT").
Definition EST : Z * string := (-18000, "EST").
Definition EDT : Z * string := (-14400, "EDT").
Definition EWT : Z * string := (-14400, "EWT").
Definition EPT : Z * string := (-14400, "EPT").

(** [pytz.timezone('US/Eastern')]: the table [pytz] builds from the zone
    file, from [datetime.min] (local mean time) to the last transition
    the file lists, in 2037. *)
Definition US_Eastern : tzinfo :=
  [
    ((-62135596800), LMT); ((-2147483648), EST); ((-1633280400), EDT);
    ((-1615140000), EST); ((-1601830800), EDT); ((-1583690400), EST);
    ((-1570381200), EDT); ((-1551636000), EST); ((-1536512400), EDT);
    ((-1523210400), EST); ((-1504458000), EDT); ((-1491760800), EST);
    ((-1473008400), EDT); ((-1459706400), EST); ((-1441558800), EDT);
    ((-1428256800), EST); ((-1410109200), EDT); ((-1396807200), EST);
    ((-1378659600), EDT); ((-1365357600), EST); ((-1347210000), EDT);
    ((-1333908000), EST); ((-1315155600), EDT); ((-1301853600), EST);
    ((-1283706000), EDT); ((-1270404000), EST); ((-1252256400), EDT);
    ((-1238954400), EST); ((-1220806800), EDT); ((-1207504800), EST);
    ((-1189357200), EDT); ((-1176055200), EST); ((-1157302800), EDT);
    ((-1144605600), EST); ((-1125853200), EDT); ((-1112551200), EST);
    ((-1094403600), EDT); ((-1081101600), EST); ((-1062954000), EDT);
    ((-1049652000), EST); ((-1031504400), EDT); ((-1018202400), EST);
    ((-1000054800), EDT); ((-986752800), EST); ((-968000400), EDT);
    ((-955303200), EST); ((-936550800), EDT); ((-923248800), EST);
    ((-905101200), EDT); ((-891799200), EST); ((-880218000), EWT);
    ((-769395600), EPT); ((-765396000), EST); ((-747248400), EDT);
    ((-733946400), EST); ((-715798800), EDT); ((-702496800), EST);
    ((-684349200), EDT); ((-671047200), EST); ((-652899600), EDT);
    ((-639597600), EST); ((-620845200), EDT); ((-608148000), EST);
    ((-589395600), EDT); ((-576093600), EST); ((-557946000), EDT);
    ((-544644000), EST); ((-526496400), EDT); ((-513194400), EST);
    ((-495046800), EDT); ((-481744800), EST); ((-463597200), EDT);
    ((-447271200), EST); ((-431542800), EDT); ((-415821600), EST);
    ((-400093200), EDT); ((-384372000), EST); ((-368643600), EDT);
    ((-352922400), EST); ((-337194000), EDT); ((-321472800), EST);
    ((-305744400), EDT); ((-289418400), EST); ((-273690000), EDT);
    ((-257968800), EST); ((-242240400), EDT); ((-226519200), EST);
    ((-210790800), EDT); ((-195069600), EST); ((-179341200), EDT);
    ((-163620000), EST); ((-147891600), EDT); ((-131565600), EST);
    ((-116442000), EDT); ((-100116000), EST); ((-84387600), EDT);
    ((-68666400), EST); ((-52938000), EDT); ((-37216800), EST);
    ((-21488400), EDT); ((-5767200), EST); (9961200, EDT); (25682400, EST);
    (41410800, EDT); (57736800, EST); (73465200, EDT); (89186400, EST);
    (104914800, EDT); (120636000, EST); (126687600, EDT); (152085600, EST);
    (162370800, EDT); (183535200, EST); (199263600, EDT); (215589600, EST);
    (230713200, EDT); (247039200, EST); (262767600, EDT); (278488800, EST);
    (294217200, EDT); (309938400, EST); (325666800, EDT); (341388000, EST);
    (357116400, EDT); (372837600, EST); (388566000, EDT); (404892000, EST);
    (420015600, EDT); (436341600, EST); (452070000, EDT); (467791200, EST);
    (483519600, EDT); (499240800, EST); (514969200, EDT); (530690400, EST);
    (544604400, EDT); (562140000, EST); (576054000, EDT); (594194400, EST);
    (607503600, EDT); (625644000, EST); (638953200, EDT); (657093600, EST);
    (671007600, EDT); (688543200, EST); (702457200, EDT); (719992800, EST);
    (733906800, EDT); (752047200, EST); (765356400, EDT); (783496800, EST);
    (796806000, EDT); (814946400, EST); (828860400, EDT); (846396000, EST);
    (860310000, EDT); (877845600, EST); (891759600, EDT); (909295200, EST);
    (923209200, EDT); (941349600, EST); (954658800, EDT); (972799200, EST);
    (986108400, EDT); (1004248800, EST); (1018162800, EDT);
    (1035698400, EST); (1049612400, EDT); (1067148000, EST);
    (1081062000, EDT); (1099202400, EST); (1112511600, EDT);
    (1130652000, EST); (1143961200, EDT); (1162101600, EST);
    (1173596400, EDT); (1194156000, EST); (1205046000, EDT);
    (1225605600, EST); (1236495600, EDT); (1257055200, EST);
    (1268550000, EDT); (1289109600, EST); (1299999600, EDT);
    (1320559200, EST); (1331449200, EDT); (1352008800, EST);
    (1362898800, EDT); (1383458400, EST); (1394348400, EDT);
    (1414908000, EST); (1425798000, EDT); (1446357600, EST);
    (1457852400, EDT); (1478412000, EST); (1489302000, EDT);
    (1509861600, EST); (1520751600, EDT); (1541311200, EST);
    (1552201200, EDT); (1572760800, EST); (1583650800, EDT);
    (1604210400, EST); (1615705200, EDT); (1636264800, EST);
    (1647154800, EDT); (1667714400, EST); (1678604400, EDT);
    (1699164000, EST); (1710054000, EDT); (1730613600, EST);
    (1741503600, EDT); (1762063200, EST); (1772953200, EDT);
    (1793512800, EST); (1805007600, EDT); (1825567200, EST);
    (1836457200, EDT); (1857016800, EST); (1867906800, EDT);
    (1888466400, EST); (1899356400, EDT); (1919916000, EST);
    (1930806000, EDT); (1951365600, EST); (1962860400, EDT);
    (1983420000, EST); (1994310000, EDT); (2014869600, EST);
    (2025759600, EDT); (2046319200, EST); (2057209200, EDT);
    (2077768800, EST); (2088658800, EDT); (2109218400, EST);
    (2120108400, EDT); (2140668000, EST)
  ].

(** [convert_utc_to_est]: the argument is [lastmod.text] or [''], so it
    may be Python's [None]. *)
Definition convert_utc_to_est (utc_datetime_str : option string)
    : option datetime :=
  match utc_datetime_str with
  | None | Some "" => None
  | Some s =>
      match strptime (replace "Z" "" s) with
      | Some utc_dt =>
          (* utc_tz.localize(utc_dt).astimezone(est_tz) *)
          fromutc US_Eastern utc_dt
      | None => None
      end
  end.

(** *** [strftime] *)

Definition digit_char (n : Z) : ascii := ascii_of_N (Z.to_N (48 + n mod 10)).

(** the decimal digits of [n], zero-padded to [w] places *)
Fixpoint pad (w : nat) (n : Z) : string :=
  match w with
  | O => ""
  | S w' => pad w' (n / 10) +:+ String (digit_char n) ""
  end.

(** [dt.strftime(fmt)] for the directives [%Y %m %d %H %M %S %Z]; other
    characters are copied. ([%Y] is written with four digits, as the C
    libraries do from year 1000 on.) *)
Fixpoint strftime (fmt : string) (dt : datetime) : string :=
  match fmt with
  | "" => ""
  | String "%" (String c fmt') =>
      (if eqb_ascii c "Y" then pad 4 (year dt)
       else if eqb_ascii c "m" then pad 2 (month dt)
       else if eqb_ascii c "d" then pad 2 (day dt)
       else if eqb_ascii c "H" then pad 2 (hour dt)
       else if eqb_ascii c "M" then pad 2 (minute dt)
       else if eqb_ascii c "S" then pad 2 (second dt)
       else if eqb_ascii c "Z" then from_option snd "" (tz dt)
       else String "%" (String c ""))
      +:+ strftime fmt' dt
  | String a fmt' => String a (strftime fmt' dt)
  end.

End TimeConverter.

(** ** ElementTree documents *)

Module ET.

#[warnings="-register-all"] Inductive Element : Type :=
| Elem (tag : string) (text : option string) (children : list Element).

Definition tag (e : Element) : string := let 'Elem t _ _ := e in t.
Definition text (e : Element) : option string := let 'Elem _ t _ := e in t.
Definition children (e : Element) : list Element :=
  let 'Elem _ _ c := e in c.

(** the [ns] prefix of the [namespace] map, in Clark notation *)
Definition ns : string := "{http://www.sitemaps.org/schemas/sitemap/0.9}".

(** [e.findall('ns:' + name, namespace)]: the children with that tag, in
    document order *)
Definition findall (name : string) (e : Element) : list Element :=
  filter (λ c, tag c = ns +:+ name) (children e).

(** [e.find('ns:' + name, namespace)] *)
Definition find (name : string) (e : Element) : option Element :=
  head (findall name e).

End ET.

(** ** The run state shared with the web interface *)

Module RunState.
Import PyStr.

(** the dictionary [extraction_status] *)
Record status : Type := mk_status {
  running : bool;
  progress : Z;
  current_category : string;
  total_categories : nat;
  processed_categories : nat;
  total_properties : nat;
  logs : list string;
  files : list string;
  start_time : option string;
  end_time : option string;
  output_dir : option string;
  error : option string
}.

Definition set_running (v : bool) (st : status) : status :=
  mk_status v (progress st) (current_category st) (total_categories st)
    (processed_categories st) (total_properties st) (logs st) (files st)
    (start_time st) (end_time st) (output_dir st) (error st).
Definition set_progress (v : Z) (st : status) : status :=
  mk_status (running st) v (current_category st) (total_categories st)
    (processed_categories st) (total_properties st) (logs st) (files st)
    (start_time st) (end_time st) (output_dir st) (error st).
Definition set_current_category (v : string) (st : status) : status :=
  mk_status (running st) (progress st) v (total_categories st)
    (processed_categories st) (total_properties st) (logs st) (files st)
    (start_time st) (end_time st) (output_dir st) (error st).
Definition set_total_categories (v : nat) (st : status) : status :=
  mk_status (running st) (progress st) (current_category st) v
    (processed_categories st) (total_properties st) (logs st) (files st)
    (start_time st) (end_time st) (output_dir st) (error st).
Definition set_processed_categories (v : nat) (st : status) : status :=
  mk_status (running st) (progress st) (current_category st)
    (total_categories st) v (total_properties st) (logs st) (files st)
    (start_time st) (end_time st) (output_dir st) (error st).
Definition set_total_properties (v : nat) (st : status) : status :=
  mk_status (running st) (progress st) (current_category st)
    (total_categories st) (processed_categories st) v (logs st) (files st)
    (start_time st) (end_time st) (output_dir st) (error st).
Definition set_logs (v : list string) (st : status) : status :=
  mk_status (running st) (progress st) (current_category st)
    (total_categories st) (processed_categories st) (total_properties st)
    v (files st) (start_time st) (end_time st) (output_dir st) (error st).
Definition set_files (v : list string) (st : status) : status :=
  mk_status (running st) (progress st) (current_category st)
    (total_categories st) (processed_categories st) (total_properties st)
    (logs st) v (start_time st) (end_time st) (output_dir st) (error st).
Definition set_start_time (v : option string) (st : status) : status :=
  mk_status (running st) (progress st) (current_category st)
    (total_categories st) (processed_categories st) (total_properties st)
    (logs st) (files st) v (end_time st) (output_dir st) (error st).
Definition set_end_time (v : option string) (st : status) : status :=
  mk_status (running st) (progress st) (current_category st)
    (total_categories st) (processed_categories st) (total_properties st)
    (logs st) (files st) (start_time st) v (output_dir st) (error st).
Definition set_output_dir (v : option string) (st : status) : status :=
  mk_status (running st) (progress st) (current_category st)
    (total_categories st) (processed_categories st) (total_properties st)
    (logs st) (files st) (start_time st) (end_time st) v (error st).
Definition set_error (v : option string) (st : status) : status :=
  mk_status (running st) (progress st) (current_category st)
    (total_categories st) (processed_categories st) (total_properties st)
    (logs st) (files st) (start_time st) (end_time st) (output_dir st) v.

(** the module globals *)
Record globals : Type := mk_globals {
  extraction_status : status;
  extraction_paused : bool
}.

Definition initial : globals :=
  mk_globals (mk_status false 0 "" 0 0 0 [] [] None None None None) false.

Definition on_status (f : status → status) (g : globals) : globals :=
  mk_globals (f (extraction_status g)) (extraction_paused g).

(** [extraction_status['logs'].append(entry)] *)
Definition logs_append (entry : string) : globals → globals :=
  on_status (λ st, set_logs (logs st ++ [entry]) st).

(** [WebUILogger.emit]: [log_entry] is the formatted record and
    [timestamp] the wall clock read by the call. *)
Definition emit (timestamp log_entry : string) (g : globals) : globals :=
  let formatted_log := "[" +:+ timestamp +:+ "] " +:+ log_entry in
  let g := logs_append formatted_log g in
  if bool_decide (200 < length (logs (extraction_status g)))
  then on_status (λ st, set_logs (last_n 200 (logs st)) st) g
  else g.

(** The control routes; the second component is the [status] field of
    the JSON reply. *)
Definition pause_extraction (g : globals) : globals * string :=
  let g := mk_globals (extraction_status g) true in
  (logs_append "[PAUSED BY USER]" g, "paused").

Definition resume_extraction (g : globals) : globals * string :=
  let g := mk_globals (extraction_status g) false in
  (logs_append "[RESUMED BY USER]" g, "resumed").

Definition stop_extraction (g : globals) : globals * string :=
  let g := on_status (set_running false) g in
  (logs_append "[STOPPED BY USER]" g, "stopped").

(** the fields of the status other than the log tail *)
Definition but_logs (g : globals) : status := set_logs [] (extraction_status g).

(** A JSON reply of one key: the HTTP status, the key and its value. *)
Definition reply : Type := Z * string * string.

(** [start_extraction] up to the start of its thread: the reply of a
    refused request, or the state the thread is started in. *)
Definition start_extraction (g : globals) : reply + globals :=
  if running (extraction_status g)
  then inl (400%Z, "error", "Extraction already running")
  else
    inr (on_status
           (λ st, set_total_properties 0
                    (set_progress 0
                       (set_files []
                          (set_logs [] (set_error None (set_running true st))))))
           g).

(** The end of [start_extraction]: the reply made from the state found
    when the half second of sleep is over. *)
Definition start_reply (g : globals) : reply :=
  match error (extraction_status g) with
  | None | Some "" => (200%Z, "status", "started")
  | Some e => (400%Z, "error", e)
  end.

(** The [except] branch of the thread of [start_extraction], [msg] being
    [str(e)]. *)
Definition fatal_error (msg : string) (g : globals) : globals :=
  on_status (λ st, set_running false (set_error (Some msg) st))
    (logs_append ("[FATAL ERROR] " +:+ msg) g).

End RunState.

(** ** Exceptions and HTTP responses *)

Module Http.

(** an exception: its class and [str(e)] *)
Record exn : Type := mk_exn { exn_class : string; str : string }.

Record response : Type := mk_response {
  status_code : Z;
  reason : string;
  url : string;
  content : string;      (* the body as received *)
  text : string          (* the body decoded as text *)
}.

(** the outcome of a GET: an exception of [requests], or a response *)
Inductive http_result : Type :=
| GetRaises (e : exn)
| GetResponse (r : response).

(** [gzip.GzipFile(fileobj=BytesIO(body)).read().decode('utf-8')] *)
Inductive gzip_result : Type :=
| GzText (s : string)
| NotGzip                (* [OSError], [gzip.BadGzipFile] *)
| GzRaises (e : exn).    (* any other exception *)

(** [response.raise_for_status()]: the [HTTPError] it raises, if any *)
Definition raise_for_status (r : response) : option exn :=
  let msg kind :=
    pretty (status_code r) +:+ " " +:+ kind +:+ " Error: " +:+ reason r
    +:+ " for url: " +:+ url r in
  if bool_decide (400 ≤ status_code r < 500)%Z
  then Some (mk_exn "HTTPError" (msg "Client"))
  else if bool_decide (500 ≤ status_code r < 600)%Z
  then Some (mk_exn "HTTPError" (msg "Server"))
  else None.

End Http.

(** ** The extractor: download, extraction loop, output sink, run *)

Module Extractor.
Import PyStr ET TimeConverter.
Import Http.

(** a listing dictionary *)
Record listing : Type := mk_listing {
  property_id : string;
  listing_url : string;
  address : string;
  city : string;
  state : string;
  zipcode : string;
  last_modified : option string;
  last_modified_est : option datetime
}.

Global Instance listing_eq_dec : EqDecision listing.
Proof. solve_decision. Defined.

(** What a written file holds: the rows of a CSV file, header first, or
    the objects of a JSON array as key/value lists ([None] is [null]). *)
Inductive file_content : Type :=
| CsvFile (rows : list (list string))
| JsonFile (data : list (list (string * option string))).

(** The state the extractor works on: the module globals, the attributes
    of [self] that change, the records handed to the file and console
    handlers of the logger, and the files written. *)
Record world : Type := mk_world {
  globals : RunState.globals;
  seen_ids : gset string;
  saved_files : list string;
  total_properties : nat;
  log : list (string * string);
  fs : list (string * file_content)
}.

Definition set_globals (v : RunState.globals) (w : world) : world :=
  mk_world v (seen_ids w) (saved_files w) (total_properties w) (log w)
    (fs w).
Definition set_seen_ids (v : gset string) (w : world) : world :=
  mk_world (globals w) v (saved_files w) (total_properties w) (log w)
    (fs w).
Definition set_saved_files (v : list string) (w : world) : world :=
  mk_world (globals w) (seen_ids w) v (total_properties w) (log w) (fs w).
Definition set_total_properties (v : nat) (w : world) : world :=
  mk_world (globals w) (seen_ids w) (saved_files w) v (log w) (fs w).
Definition set_log (v : list (string * string)) (w : world) : world :=
  mk_world (globals w) (seen_ids w) (saved_files w) (total_properties w) v
    (fs w).
Definition set_fs (v : list (string * file_content)) (w : world) : world :=
  mk_world (globals w) (seen_ids w) (saved_files w) (total_properties w)
    (log w) v.

(** the attributes of [self] fixed by [__init__] *)
Record config : Type := mk_config {
  output_dir : string;
  sitemap_urls : list string;
  max_workers : nat;
  output_format : string;
  webui_mode : bool
}.

(** *** Computations: state, exceptions, and the pause loop that never
    ends when nothing changes the flags *)

Inductive result (A : Type) : Type :=
| Returns (a : A) (w : world)
| Raises (e : exn) (w : world)
| Spins.
Arguments Returns {A} a w.
Arguments Raises {A} e w.
Arguments Spins {A}.

Definition M (A : Type) : Type := world → result A.

Definition ret {A} (a : A) : M A := λ w, Returns a w.

Definition bind {A B} (c : M A) (k : A → M B) : M B := λ w,
  match c w with
  | Returns a w' => k a w'
  | Raises e w' => Raises e w'
  | Spins => Spins
  end.

Definition raise {A} (e : exn) : M A := λ w, Raises e w.

Definition get : M world := λ w, Returns w w.

Definition modify (f : world → world) : M unit := λ w, Returns () (f w).

(** [try: c except Exception as e: h e] *)
Definition try_except {A} (c : M A) (h : exn → M A) : M A := λ w,
  match c w with
  | Raises e w' => h e w'
  | r => r
  end.

Definition when (b : bool) (c : M unit) : M unit := if b then c else ret ().

Notation "'let*' x ':=' c 'in' k" := (bind c (λ x, k))
  (at level 10, x name, c at level 100, k at level 200).
Notation "c ';;' k" := (bind c (λ _, k))
  (at level 100, k at level 200, right associativity).

(** *** Comparing two runs

    What a run produces is the set of seen identifiers, the files written
    and their names, and the count of records; the flags are what the
    control routes set. *)
Definition outputs (w : world)
    : gset string * list string * nat * list (string * file_content)
      * list string :=
  (seen_ids w, saved_files w, total_properties w, fs w,
   RunState.files (RunState.extraction_status (globals w))).

Definition flags (w : world) : bool * bool :=
  (RunState.running (RunState.extraction_status (globals w)),
   RunState.extraction_paused (globals w)).

Definition same (w1 w2 : world) : Prop :=
  outputs w1 = outputs w2 ∧ flags w1 = flags w2.

(** what every computation of the extractor keeps of the state it starts
    in: the flags, the records already logged, and the error field *)
Definition kept (w w' : world) : Prop :=
  flags w' = flags w ∧ log w ⊆ log w'
  ∧ RunState.error (RunState.extraction_status (globals w'))
    = RunState.error (RunState.extraction_status (globals w)).



(** A computation that returns and changes neither outputs nor flags *)
Definition quiet (c : M unit) : Prop :=
  ∀ w, ∃ w', c w = Returns () w' ∧ same w w' ∧ kept w w'.

(** [wp c Q E w]: started in [w], the computation [c] ends; it returns a
    value and a state in [Q], or raises an exception in a state in [E]. *)
Definition wp {A} (c : M A) (Q : A → world → Prop)
    (E : exn → world → Prop) (w : world) : Prop :=
  match c w with
  | Returns a w' => Q a w'
  | Raises e w' => E e w'
  | Spins => False
  end.

(** A state that differs from [w] in the logged records only: the
    attributes of the extractor, the files, and the run state but for its
    log tail are those of [w]. *)
Definition logged (w w' : world) : Prop :=
  seen_ids w' = seen_ids w ∧ saved_files w' = saved_files w
  ∧ total_properties w' = total_properties w ∧ fs w' = fs w
  ∧ RunState.but_logs (globals w') = RunState.but_logs (globals w)
  ∧ RunState.extraction_paused (globals w')
    = RunState.extraction_paused (globals w)
  ∧ log w `prefix_of` log w'.

(** the records a written file holds *)
Definition records_of (c : file_content) : nat :=
  match c with
  | CsvFile rows => length rows - 1
  | JsonFile data => length data
  end.


(** [s * n] *)
Fixpoint str_mul (s : string) (n : nat) : string :=
  match n with
  | O => ""
  | S n' => s +:+ str_mul s n'
  end.

Fixpoint upper (s : string) : string :=
  match s with
  | "" => ""
  | String a s' =>
      String (if is_lower a then ascii_of_N (N_of_ascii a - 32) else a)
             (upper s')
  end.

(** [f"{n:,}"] *)
Fixpoint group_thousands (digits_rev : string) (k : nat) : string :=
  match digits_rev with
  | "" => ""
  | String a s' =>
      match k, s' with
      | 2%nat, String _ _ => String a (String "," (group_thousands s' 0))
      | _, _ => String a (group_thousands s' (S k))
      end
  end.
Definition format_thousands (n : nat) : string :=
  String.rev (group_thousands (String.rev (pretty n)) 0).

(** [os.path.join(a, b)] for a relative [b] *)
Definition path_join (a b : string) : string :=
  if bool_decide (a = "") then b
  else if bool_decide (last_n 1 (String.list_ascii_of_string a) = ["/"%char])
  then a +:+ b
  else a +:+ "/" +:+ b.

(** the entries of [l] whose flag is set *)
Definition select {A} (flags : list bool) (l : list A) : list A :=
  omap (λ p : bool * A, if p.1 then Some p.2 else None) (zip flags l).
Global Arguments select : simpl never.


Section Env.
(** The surroundings of a run: the network, the decompressor, the XML
    parser, the file system and the clock. *)
Variable check_bracketed_netloc : string → bool.
(** [self.session.get(url, timeout=30)], with the agent drawn *)
Variable session_get : string → http_result.
Variable gunzip : string → gzip_result.
(** [ET.fromstring]: the root, or the message of its [ParseError] *)
Variable fromstring : string → Element + string.
(** [open(filepath, 'w', ...)] and the writes: [Some e] when they raise *)
Variable open_write : string → option exn.
(** [datetime.now()] as [%Y%m%d_%H%M%S], [%H:%M:%S] and [isoformat()] *)
Variable now_stamp now_hms now_iso : string.
(** [time.time() - start_time] in whole seconds *)
Variable execution_time : nat.
(** [int((current / total) * 100)], computed in floating point *)
Variable percent : nat → nat → Z.

Variable cfg : config.

(** *** Logging: the logger passes records of level INFO and above to
    its handlers; the web handler is attached in web mode. *)
Definition logger_log (levelname msg : string) : M unit :=
  modify (λ w,
    let w := set_log (log w ++ [(levelname, msg)]) w in
    if webui_mode cfg
    then set_globals
           (RunState.emit now_hms (levelname +:+ " - " +:+ msg) (globals w))
           w
    else w).

Definition logger_info : string → M unit := logger_log "INFO".
Definition logger_error : string → M unit := logger_log "ERROR".
Definition logger_debug (msg : string) : M unit := ret ().

Definition on_status (f : RunState.status → RunState.status) : M unit :=
  modify (λ w, set_globals (RunState.on_status f (globals w)) w).

(** *** [download_sitemap] *)
Definition download_sitemap (url : string) : M (option string) :=
  try_except
    (match session_get url with
     | GetRaises e => raise e
     | GetResponse response =>
         match raise_for_status response with
         | Some e => raise e
         | None =>
             match gunzip (Http.content response) with
             | GzText content => ret (Some content)
             | NotGzip => ret (Some (Http.text response))
             | GzRaises e => raise e
             end
         end
     end)
    (λ e,
       logger_error ("Failed to download sitemap " +:+ url +:+ ": "
                     +:+ str e);;
       ret None).

(** *** [extract_listings_from_sitemap] *)

(** [parse_listing_url(loc.text)]: the text of an empty element is
    [None], on which the decoder ends in its [except] branch. *)
Definition parse_loc (listing_url : option string)
    : option UrlDecoder.parsed :=
  listing_url ≫= UrlDecoder.parse_listing_url check_bracketed_netloc.

(** [lastmod.text if lastmod is not None else ''] *)
Definition lastmod_text (url_elem : Element) : option string :=
  match find "lastmod" url_elem with
  | Some lastmod => ET.text lastmod
  | None => Some ""
  end.

(** the listing record built for an element whose URL decodes *)
Definition make_listing (url_elem : Element) : option listing :=
  match find "loc" url_elem with
  | Some loc =>
      let last_modified_utc := lastmod_text url_elem in
      let last_modified_est := convert_utc_to_est last_modified_utc in
      match ET.text loc, parse_loc (ET.text loc) with
      | Some listing_url, Some parsed =>
          Some (mk_listing (UrlDecoder.property_id parsed) listing_url
                  (UrlDecoder.address parsed) (UrlDecoder.city parsed)
                  (UrlDecoder.state parsed) (UrlDecoder.zipcode parsed)
                  last_modified_utc last_modified_est)
      | _, _ => None
      end
  | None => None
  end.

(** the body of the loop over the [<url>] elements, from index [idx] *)
Fixpoint url_loop (total_urls idx : nat) (urls : list Element)
    (listings : list listing) : M (list listing) :=
  match urls with
  | [] => ret listings
  | url_elem :: rest =>
      when (bool_decide (Z.of_nat idx mod 10000 = 0)%Z)
        (logger_info ("Processed " +:+ pretty idx +:+ "/"
                      +:+ pretty total_urls +:+ " URLs..."));;
      let* w := get in
      match make_listing url_elem with
      | Some listing =>
          if bool_decide (property_id listing ∈ seen_ids w)
          then url_loop total_urls (S idx) rest listings
          else
            modify (λ w, set_seen_ids ({[property_id listing]} ∪ seen_ids w) w);;
            url_loop total_urls (S idx) rest (listings ++ [listing])
      | None => url_loop total_urls (S idx) rest listings
      end
  end.


Definition extract_listings_from_sitemap (sitemap_url : string)
    : M (list listing) :=
  let* content := download_sitemap sitemap_url in
  match content with
  | None | Some "" => ret []
  | Some content =>
      match fromstring content with
      | inr msg => raise (mk_exn "ParseError" msg)
      | inl root =>
          let urls := findall "url" root in
          let total_urls := length urls in
          logger_info ("Processing " +:+ pretty total_urls
                       +:+ " URLs from sitemap...");;
          let* listings := url_loop total_urls 1 urls [] in
          logger_info ("✓ Extracted " +:+ pretty (length listings)
                       +:+ " unique listings");;
          ret listings
      end
  end.

(** *** The output sink *)

(** the CSV field names *)
Definition fields : list string :=
  ["property_id"; "listing_url"; "address"; "city"; "state"; "zipcode";
   "last_modified"; "last_modified_est"].

Definition est_format : string := "%Y-%m-%d %H:%M:%S %Z".

(** [listing.get(field, '')] with the local time formatted when it is
    present (a [datetime] is never falsy); [None] is Python's [None]. *)
Definition row_value (listing : listing) (field : string) : option string :=
  if bool_decide (field = "property_id") then Some (property_id listing)
  else if bool_decide (field = "listing_url") then Some (listing_url listing)
  else if bool_decide (field = "address") then Some (address listing)
  else if bool_decide (field = "city") then Some (city listing)
  else if bool_decide (field = "state") then Some (state listing)
  else if bool_decide (field = "zipcode") then Some (zipcode listing)
  else if bool_decide (field = "last_modified") then last_modified listing
  else if bool_decide (field = "last_modified_est")
  then strftime est_format <$> last_modified_est listing
  else Some "".

(** what [csv.writer] writes for a value: [None] becomes the empty
    string *)
Definition csv_cell (v : option string) : string := default "" v.

(** the rows [writeheader] and [writerow] produce *)
Definition csv_rows (listings : list listing) : list (list string) :=
  fields :: map (λ listing, map (λ field, csv_cell (row_value listing field)) fields)
                listings.


(** [dict(listing)] with the local time formatted *)
Definition json_item (listing : listing) : list (string * option string) :=
  map (λ field, (field, row_value listing field)) fields.

(** the bookkeeping after a file is written *)
Definition track_saved_file (filename : string) : M unit :=
  modify (λ w, set_saved_files (saved_files w ++ [filename]) w);;
  when (webui_mode cfg)
    (on_status (λ st, RunState.set_files (RunState.files st ++ [filename]) st)).

Definition write_file (filepath : string) (c : file_content) : M unit :=
  match open_write filepath with
  | Some e => raise e
  | None => modify (λ w, set_fs (fs w ++ [(filepath, c)]) w)
  end.

Definition save_to_csv (listings : list listing) (category : string)
    : M (option string) :=
  match listings with
  | [] => ret None
  | _ =>
      let timestamp := now_stamp in
      let filename :=
        "listings_" +:+ category +:+ "_" +:+ timestamp +:+ ".csv" in
      let filepath := path_join (output_dir cfg) filename in
      try_except
        (write_file filepath (CsvFile (csv_rows listings));;
         track_saved_file filename;;
         logger_info ("✓ Saved " +:+ pretty (length listings)
                      +:+ " records to CSV: " +:+ filename);;
         ret (Some filepath))
        (λ e,
           logger_error ("Failed to save CSV file: " +:+ str e);;
           ret None)
  end.

Definition save_to_json (listings : list listing) (category : string)
    : M (option string) :=
  match listings with
  | [] => ret None
  | _ =>
      let timestamp := now_stamp in
      let filename :=
        "listings_" +:+ category +:+ "_" +:+ timestamp +:+ ".json" in
      let filepath := path_join (output_dir cfg) filename in
      try_except
        (let data := map json_item listings in
         write_file filepath (JsonFile data);;
         track_saved_file filename;;
         logger_info ("✓ Saved " +:+ pretty (length listings)
                      +:+ " records to JSON: " +:+ filename);;
         ret (Some filepath))
        (λ e,
           logger_error ("Failed to save JSON file: " +:+ str e);;
           ret None)
  end.

(** *** [process_sitemap] and [run] *)

(** [sitemap_url.split('/')[-1].replace('.xml.gz', '')] *)
Definition category_of (sitemap_url : string) : string :=
  replace ".xml.gz" "" (default "" (last (split "/" sitemap_url))).

(** The pause loop sleeps while [extraction_paused] holds and leaves
    the function once the run is stopped; with both flags left as they
    are, it spins. *)
Definition process_sitemap (sitemap_url : string) (current total : nat)
    : M unit :=
  let* w := get in
  let running := RunState.running (RunState.extraction_status (globals w)) in
  if RunState.extraction_paused (globals w) then
    if running then (λ _, Spins) else ret ()
  else if negb running then ret ()
  else
    let category := category_of sitemap_url in
    logger_info (String "010" (str_mul "=" 50));;
    logger_info ("[" +:+ pretty current +:+ "/" +:+ pretty total
                 +:+ "] Processing: " +:+ category);;
    logger_info (str_mul "=" 50);;
    when (webui_mode cfg)
      (on_status (λ st,
         RunState.set_progress (percent current total)
           (RunState.set_processed_categories current
              (RunState.set_current_category category st))));;
    let* listings := extract_listings_from_sitemap sitemap_url in
    (if bool_decide (output_format cfg = "csv")
     then save_to_csv listings category;; ret ()
     else if bool_decide (output_format cfg = "json")
     then save_to_json listings category;; ret ()
     else ret ());;
    modify (λ w, set_total_properties (total_properties w + length listings) w);;
    let* w := get in
    when (webui_mode cfg)
      (on_status (RunState.set_total_properties (total_properties w))).

(** The jobs of the pool, taken one at a time in the order of
    submission; an exception of a job is caught where its result is
    collected. *)
Fixpoint run_jobs (jobs : list (nat * string)) (total_sitemaps : nat)
    : M unit :=
  match jobs with
  | [] => ret ()
  | (i, url) :: rest =>
      try_except (process_sitemap url (i + 1) total_sitemaps)
        (λ e, logger_error ("Error processing sitemap: " +:+ str e));;
      run_jobs rest total_sitemaps
  end.

Definition enumerate {A} (l : list A) : list (nat * A) := imap pair l.

Definition run : M unit :=
  when (webui_mode cfg) (on_status (RunState.set_start_time (Some now_iso)));;
  logger_info (str_mul "=" 60);;
  logger_info "Real Estate Listing Metadata Extraction";;
  logger_info (str_mul "=" 60);;
  logger_info ("Output format: " +:+ upper (output_format cfg));;
  logger_info ("Output directory: " +:+ output_dir cfg);;
  logger_info ("Concurrent workers: " +:+ pretty (max_workers cfg));;
  match sitemap_urls cfg with
  | [] => logger_error "No sitemaps provided for extraction!"
  | _ =>
      let total_sitemaps := length (sitemap_urls cfg) in
      when (webui_mode cfg)
        (on_status (RunState.set_total_categories total_sitemaps));;
      logger_info ("Processing " +:+ pretty total_sitemaps
                   +:+ " sitemaps..." +:+ String "010" "");;
      run_jobs (enumerate (sitemap_urls cfg)) total_sitemaps;;
      let minutes := (execution_time / 60)%nat in
      let seconds := (execution_time mod 60)%nat in
      logger_info (String "010" (str_mul "=" 60));;
      logger_info "EXTRACTION COMPLETE!";;
      logger_info ("Execution time: " +:+ pretty minutes +:+ "m "
                   +:+ pretty seconds +:+ "s");;
      let* w := get in
      logger_info ("Total listings extracted: "
                   +:+ format_thousands (total_properties w));;
      logger_info ("Total files created: "
                   +:+ pretty (length (saved_files w)));;
      logger_info (str_mul "=" 60);;
      when (webui_mode cfg)
        (on_status (λ st,
           RunState.set_running false
             (RunState.set_end_time (Some now_iso) st)))
  end.

(** *** [__init__] and [setup_logging]

    The attributes that change start empty; [log_filename] is the path
    of the log file. The directory and the log file are created before
    the first record is logged. *)
Definition __init__ (log_filename : string) : M unit :=
  modify (λ w, set_total_properties 0 (set_saved_files [] w));;
  modify (set_seen_ids ∅);;
  logger_info ("Log file created: " +:+ log_filename);;
  when (webui_mode cfg)
    (on_status (RunState.set_output_dir (Some (output_dir cfg)))).
End Env.

(** *** The thread of [start_extraction] *)
Section Thread.
Variable check_bracketed_netloc : string → bool.
Variable session_get : string → http_result.
Variable gunzip : string → gzip_result.
Variable fromstring : string → Element + string.
Variable open_write : string → option exn.
Variables now_stamp now_hms now_iso : string.
Variable execution_time : nat.
Variable percent : nat → nat → Z.
(** the attributes the constructor takes from the request *)
Variable cfg : config.
Variable log_filename : string.
(** The exception the constructor call raises, if it raises one: from
    [int] on the number of workers, [os.makedirs] or
    [logging.FileHandler], all of them before a record is logged or the
    run state is assigned to. *)
Variable construct : option exn.

(** [webui_mode=True] *)
Definition web_mode (cfg : config) : config :=
  mk_config (output_dir cfg) (sitemap_urls cfg) (max_workers cfg)
    (output_format cfg) true.

(** the function [run] local to [start_extraction], target of the
    thread *)
Definition thread_run : M unit :=
  try_except
    (match construct with
     | Some e => raise e
     | None =>
         __init__ now_hms (web_mode cfg) log_filename;;
         run check_bracketed_netloc session_get gunzip fromstring open_write
           now_stamp now_hms now_iso execution_time percent (web_mode cfg)
     end)
    (λ e, modify (λ w,
       set_globals (RunState.fatal_error (str e) (globals w)) w)).
End Thread.

(** *** [get_sitemap_children] *)
Section Children.
(** [requests.get(parent_url, timeout=30)] *)
Variable requests_get : string → http_result.
Variable gunzip : string → gzip_result.
Variable fromstring : string → Element + string.

(** the [loc] texts of the [<sitemap>] children that have one *)
Definition child_locs (root : Element) : list (option string) :=
  omap (λ sitemap, ET.text <$> find "loc" sitemap) (findall "sitemap" root).

(** the inner [try]: the decompressed body, or [response.text] after any
    exception *)
Definition body_text (response : response) : string :=
  match gunzip (Http.content response) with
  | GzText content => content
  | NotGzip | GzRaises _ => Http.text response
  end.

(** The result and the line printed, if any. *)
Definition get_sitemap_children (parent_url : string)
    : list (option string) * option string :=
  let failed (e : string) :=
    ([], Some ("Error fetching children from " +:+ parent_url +:+ ": " +:+ e)) in
  match requests_get parent_url with
  | GetRaises e => failed (str e)
  | GetResponse response =>
      match raise_for_status response with
      | Some e => failed (str e)
      | None =>
          let content := body_text response in
          match fromstring content with
          | inr msg => failed msg
          | inl root => (child_locs root, None)
          end
      end
  end.

(** [get_children_route], [url] being [request.args.get('url')]: the
    HTTP status with the error message or the parent and its children.
    [get_sitemap_children] returns on every path, which leaves the
    [except] branch of the route (status 500) nothing to catch. *)
Definition get_children_route (url : option string)
    : Z * (string + string * list (option string)) :=
  match url with
  | None | Some "" => (400%Z, inl "No URL provided")
  | Some parent_url =>
      (200%Z, inr (parent_url, (get_sitemap_children parent_url).1))
  end.
End Children.

End Extractor.

(** ** Workers of the pool on the shared set of seen identifiers

    The workers of [ThreadPoolExecutor] run the loop body of
    [extract_listings_from_sitemap] on one [self.seen_ids]. The membership
    test and the insertion are two statements with no lock around them, so
    a worker can be preempted between them: they are two steps here. *)

Module Workers.
Import Extractor.

Record worker : Type := mk_worker {
  pending : list listing;        (* decoded entries still to be offered *)
  adding : option listing;       (* past the test, before [seen_ids.add] *)
  listings : list listing        (* the worker's own result list *)
}.

Definition step (seen_ids : gset string) (wk : worker)
    : gset string * worker :=
  match adding wk with
  | Some listing =>
      ({[property_id listing]} ∪ seen_ids,
       mk_worker (pending wk) None (listings wk ++ [listing]))
  | None =>
      match pending wk with
      | [] => (seen_ids, wk)
      | listing :: rest =>
          if bool_decide (property_id listing ∈ seen_ids)
          then (seen_ids, mk_worker rest None (listings wk))
          else (seen_ids, mk_worker rest (Some listing) (listings wk))
      end
  end.

Record pool : Type := mk_pool {
  seen_ids : gset string;
  workers : list worker
}.

(** worker [i] takes one step *)
Definition step_pool (p : pool) (i : nat) : pool :=
  match workers p !! i with
  | Some wk =>
      let '(seen, wk') := step (seen_ids p) wk in
      mk_pool seen (<[i := wk']> (workers p))
  | None => p
  end.

(** a schedule names the worker that moves at each step *)
Definition run_schedule (schedule : list nat) (p : pool) : pool :=
  foldl step_pool p schedule.

Definition start (jobs : list (list listing)) : pool :=
  mk_pool ∅ (map (λ entries, mk_worker entries None []) jobs).

(** the records all workers stored *)
Definition stored (p : pool) : list listing :=
  concat (map listings (workers p)).

End Workers.

(** ** The statements of the specification, in its own words *)

Module Spec.
Import PyStr.

(** the record the specification gives for its example URL *)
Definition example_url : string :=
  "/homedetails/123-Main-St-Springfield-IL-62701/12345_zpid/".
Definition example_record : UrlDecoder.parsed :=
  UrlDecoder.mk_parsed "12345" "123 Main St" "Springfield IL" "IL" "62701".



(** [YYYY-MM-DDTHH:MM:SS[Z]] *)
Definition digits (n : nat) (s : string) : bool :=
  bool_decide (strlen s = n) && all_chars is_digit s.
Definition timestamp_form (s : string) : bool :=
  let s := if bool_decide (drop_str 19 s = "Z") then take_str 19 s else s in
  bool_decide (strlen s = 19)
  && digits 4 (take_str 4 s)
  && bool_decide (take_str 1 (drop_str 4 s) = "-")
  && digits 2 (take_str 2 (drop_str 5 s))
  && bool_decide (take_str 1 (drop_str 7 s) = "-")
  && digits 2 (take_str 2 (drop_str 8 s))
  && bool_decide (take_str 1 (drop_str 10 s) = "T")
  && digits 2 (take_str 2 (drop_str 11 s))
  && bool_decide (take_str 1 (drop_str 13 s) = ":")
  && digits 2 (take_str 2 (drop_str 14 s))
  && bool_decide (take_str 1 (drop_str 16 s) = ":")
  && digits 2 (take_str 2 (drop_str 17 s)).

(** the bound of the log tail *)
Definition log_bound : nat := 200.

End Spec.

(** ** Concrete surroundings used to run the definitions *)

Module Examples.
Import ET Http Extractor.

Definition chk (_ : string) : bool := true.

Definition url_elem (loc lastmod : string) : Element :=
  Elem (ns +:+ "url") None
    [Elem (ns +:+ "loc") (Some loc) [];
     Elem (ns +:+ "lastmod") (Some lastmod) []].

Definition main_st : string :=
  "https://www.zillow.com/homedetails/123-Main-St-Springfield-IL-62701/12345_zpid/".
Definition oak_ave : string :=
  "https://www.zillow.com/homedetails/9-Oak-Ave-Salem-OR-97301/777_zpid/".

(** a leaf sitemap with a repeated listing and an entry that does not
    decode *)
Definition leaf_xml : string :=
  "<urlset xmlns='http://www.sitemaps.org/schemas/sitemap/0.9'><url><loc>https://www.zillow.com/homedetails/123-Main-St-Springfield-IL-62701/12345_zpid/</loc><lastmod>2024-01-15T12:00:00Z</lastmod></url><url><loc>https://www.zillow.com/homedetails/9-Oak-Ave-Salem-OR-97301/777_zpid/</loc><lastmod>soon</lastmod></url><url><loc>https://www.zillow.com/homedetails/123-Main-St-Springfield-IL-62701/12345_zpid/</loc><lastmod>2024-07-01T00:00:00Z</lastmod></url><url><loc>https://www.zillow.com/about/</loc><lastmod>2024-07-01T00:00:00Z</lastmod></url></urlset>".
Definition leaf_root : Element :=
  Elem (ns +:+ "urlset") None
    [url_elem main_st "2024-01-15T12:00:00Z";
     url_elem oak_ave "soon";
     url_elem main_st "2024-07-01T00:00:00Z";
     url_elem "https://www.zillow.com/about/" "2024-07-01T00:00:00Z"].

(** a document cut short *)
Definition broken_xml : string :=
  "<urlset xmlns='http://www.sitemaps.org/schemas/sitemap/0.9'><url><loc>".

(** a sitemap index, the second entry without [<loc>] *)
Definition index_xml : string :=
  "<sitemapindex xmlns='http://www.sitemaps.org/schemas/sitemap/0.9'><sitemap><loc>https://www.zillow.com/xml/a.xml.gz</loc></sitemap><sitemap><lastmod>2024-01-01</lastmod></sitemap><sitemap><loc>https://www.zillow.com/xml/b.xml.gz</loc></sitemap></sitemapindex>".
Definition index_root : Element :=
  Elem (ns +:+ "sitemapindex") None
    [Elem (ns +:+ "sitemap") None
       [Elem (ns +:+ "loc") (Some "https://www.zillow.com/xml/a.xml.gz") []];
     Elem (ns +:+ "sitemap") None
       [Elem (ns +:+ "lastmod") (Some "2024-01-01") []];
     Elem (ns +:+ "sitemap") None
       [Elem (ns +:+ "loc") (Some "https://www.zillow.com/xml/b.xml.gz") []]].

Definition bad_url : string := "https://www.zillow.com/xml/bad.xml.gz".
Definition index_url : string := "https://www.zillow.com/xml/index.xml".
Definition gone_url : string := "https://www.zillow.com/xml/gone.xml".
Definition down_url : string := "https://down.example/xml/index.xml".

(** The server sends its documents uncompressed. *)
Definition http_get (url : string) : http_result :=
  if bool_decide (url = bad_url)
  then GetResponse (mk_response 200 "OK" url broken_xml broken_xml)
  else if bool_decide (url = index_url)
  then GetResponse (mk_response 200 "OK" url index_xml index_xml)
  else if bool_decide (url = gone_url)
  then GetResponse (mk_response 404 "Not Found" url index_xml index_xml)
  else if bool_decide (url = down_url)
  then GetRaises (mk_exn "ConnectionError" "Max retries exceeded")
  else GetResponse (mk_response 200 "OK" url leaf_xml leaf_xml).

Definition gunzip (body : string) : gzip_result := NotGzip.

Definition fromstring (content : string) : Element + string :=
  if bool_decide (content = leaf_xml) then inl leaf_root
  else if bool_decide (content = index_xml) then inl index_root
  else inr "no element found: line 1, column 71".

Definition open_write (filepath : string) : option exn := None.

Definition percent (current total : nat) : Z :=
  (Z.of_nat current * 100 / Z.of_nat total)%Z.

Definition cfg (urls : list string) : config :=
  mk_config "/data/out" urls 5 "csv" true.


Definition run (urls : list string) : M unit :=
  Extractor.run chk http_get gunzip fromstring open_write
    "20240115_120000" "12:00:00" "2024-01-15T12:00:00" 3 percent (cfg urls).

Definition process_sitemap (urls : list string)
    : string → nat → nat → M unit :=
  Extractor.process_sitemap chk http_get gunzip fromstring open_write
    "20240115_120000" "12:00:00" percent (cfg urls).

(** a state whose log tail is full *)
Definition full_log : RunState.globals :=
  RunState.on_status (RunState.set_logs (replicate 200 "[12:00:00] INFO - x"))
    RunState.initial.

(** two workers whose sitemaps list the same property *)
Definition main_st_listing (lastmod : string) : listing :=
  mk_listing "12345" main_st "123 Main" "St Springfield" "IL" "62701"
    (Some lastmod) (TimeConverter.convert_utc_to_est (Some lastmod)).
Definition two_workers : Workers.pool :=
  Workers.start [[main_st_listing "2024-01-15T12:00:00Z"];
                 [main_st_listing "2024-07-01T00:00:00Z"]].

End Examples.

(** * Properties *)

(** ** The URL decoder on the example of the specification *)

Section DecodeExample.
Import UrlDecoder.

(** C3 as stated: decoding the example URL yields the address
    "123 Main St" and the city "Springfield IL". The decoder does not
    return that record. *)
Lemma decode_example_differs :
  parse_listing_url Examples.chk Spec.example_url ≠ Some Spec.example_record.
Proof. vm_compute. discriminate. Qed.

(** C3, amended: the pattern takes the state and the ZIP code off the end
    of the slug, and the last two tokens of what is left form the city.
    Decoding the example URL yields the property id "12345", the address
    "123 Main", the city "St Springfield", the state "IL" and the ZIP code
    "62701". *)
Theorem decode_example :
  ∀ check_bracketed_netloc,
    parse_listing_url check_bracketed_netloc Spec.example_url
    = Some (mk_parsed "12345" "123 Main" "St Springfield" "IL" "62701").
Proof. intros chk. vm_compute. reflexivity. Qed.
End DecodeExample.

(** ** The log tail and the control routes *)

Section Control.
Import RunState.

Lemma length_last_n {A} (n : nat) (l : list A) :
  length (PyStr.last_n n l) = Nat.min n (length l).
Proof. unfold PyStr.last_n. rewrite length_drop. lia. Qed.

(** The logging handler keeps the bound whatever it starts from. *)
Lemma emit_log_bound timestamp log_entry g :
  length (logs (extraction_status (emit timestamp log_entry g)))
  ≤ Spec.log_bound.
Proof.
  unfold emit, Spec.log_bound. case_bool_decide as Hlen; simpl in *.
  - rewrite length_last_n. lia.
  - lia.
Qed.

(** The handler drops the oldest entries: what it keeps is the end of
    the old tail followed by the new entry. *)
Lemma emit_keeps_newest timestamp log_entry g :
  ∃ dropped,
    logs (extraction_status g) ++ ["[" +:+ timestamp +:+ "] " +:+ log_entry]
    = dropped ++ logs (extraction_status (emit timestamp log_entry g)).
Proof.
  unfold emit. case_bool_decide; simpl.
  - eexists. unfold PyStr.last_n. symmetry. apply take_drop.
  - by exists [].
Qed.

(** C8 at a full log tail: [pause_extraction] appends its marker without
    trimming, and the tail then holds 201 entries. *)
Theorem pause_extraction_exceeds_log_bound :
  length (logs (extraction_status Examples.full_log)) = Spec.log_bound
  ∧ length (logs (extraction_status (pause_extraction Examples.full_log).1))
    = S Spec.log_bound.
Proof. split; vm_compute; reflexivity. Qed.

(** C9 as stated: a second [pause_extraction] leaves the whole run state
    as the first call left it. The log tail differs. *)
Lemma pause_extraction_twice_differs :
  let once := (pause_extraction initial).1 in
  (pause_extraction once).1 ≠ once.
Proof. vm_compute. discriminate. Qed.

(** C9, amended: the control calls cannot fail; a repeated call leaves
    the paused flag, the running flag and every field other than the log
    tail as the first call left them, and [stop_extraction] on a run that
    is over changes nothing but the log tail; each call appends its
    marker to the log tail. *)
Theorem control_calls_idempotent_up_to_log :
  ∀ g,
    let paused := (pause_extraction g).1 in
    let resumed := (resume_extraction g).1 in
    let stopped := (stop_extraction g).1 in
    (extraction_paused paused = true
     ∧ extraction_paused (pause_extraction paused).1 = true
     ∧ but_logs (pause_extraction paused).1 = but_logs paused
     ∧ logs (extraction_status (pause_extraction paused).1)
       = logs (extraction_status paused) ++ ["[PAUSED BY USER]"])
    ∧ (extraction_paused resumed = false
       ∧ extraction_paused (resume_extraction resumed).1 = false
       ∧ but_logs (resume_extraction resumed).1 = but_logs resumed
       ∧ logs (extraction_status (resume_extraction resumed).1)
         = logs (extraction_status resumed) ++ ["[RESUMED BY USER]"])
    ∧ (running (extraction_status stopped) = false
       ∧ extraction_paused stopped = extraction_paused g
       ∧ but_logs stopped = set_running false (but_logs g)
       ∧ but_logs (stop_extraction stopped).1 = but_logs stopped
       ∧ extraction_paused (stop_extraction stopped).1
         = extraction_paused stopped
       ∧ logs (extraction_status stopped)
         = logs (extraction_status g) ++ ["[STOPPED BY USER]"]).
Proof. intros [[] ?]. simpl. repeat split; reflexivity. Qed.
End Control.

(** ** Workers without a lock *)

Section Race.
Import Workers.

(** C2 on two workers whose sitemaps list the same property: when both
    pass the membership test before either inserts, both store a record
    for the property id "12345". *)
Theorem unlocked_check_then_add_stores_twice :
  let final := run_schedule [0; 1; 0; 1] Examples.two_workers in
  Extractor.property_id <$> stored final = ["12345"; "12345"]
  ∧ length <$> (listings <$> workers final) = [1; 1].
Proof. vm_compute. split; reflexivity. Qed.

(** When each worker inserts before the other tests, one record is
    stored. *)
Lemma serial_check_then_add_stores_once :
  Extractor.property_id
    <$> stored (run_schedule [0; 0; 1; 1] Examples.two_workers)
  = ["12345"].
Proof. vm_compute. reflexivity. Qed.
End Race.

(** ** The time converter *)

Section TimeConversion.
Import PyStr TimeConverter Extractor.

(** C6 as stated: every malformed string is refused. A string that is not
    of the form [YYYY-MM-DDTHH:MM:SS[Z]] is converted all the same when
    deleting its letters Z leaves a timestamp. *)
Lemma convert_utc_to_est_accepts_malformed :
  ¬ (∀ s, s = "" ∨ Spec.timestamp_form s = false
          → convert_utc_to_est (Some s) = None).
Proof.
  intros H. specialize (H "20Z24-01-15T12:00:00").
  vm_compute in H. by specialize (H (or_intror eq_refl)).
Qed.

(** C6, amended: "2024-01-15T12:00:00Z" converts to 2024-01-15 07:00:00
    Eastern standard time (UTC-5); no local timestamp is returned for a
    missing or empty string, nor for a string that does not parse as
    [%Y-%m-%dT%H:%M:%S] once every letter Z is deleted from it; and
    whatever the conversion returns, the record built for an entry
    carries the text of its [<lastmod>] unchanged. *)
Theorem convert_utc_to_est_spec :
  convert_utc_to_est (Some "2024-01-15T12:00:00Z")
  = Some (mk_datetime 2024 1 15 7 0 0 (Some ((-18000)%Z, "EST")))
  ∧ convert_utc_to_est None = None
  ∧ convert_utc_to_est (Some "") = None
  ∧ (∀ s, strptime (replace "Z" "" s) = None
          → convert_utc_to_est (Some s) = None)
  ∧ (∀ check_bracketed_netloc url_elem listing,
       make_listing check_bracketed_netloc url_elem = Some listing
       → last_modified listing = lastmod_text url_elem
         ∧ last_modified_est listing
           = convert_utc_to_est (lastmod_text url_elem)).
Proof.
  split; [by vm_compute|]. split; [done|]. split; [done|]. split.
  - intros s Hs. unfold convert_utc_to_est. rewrite Hs. by destruct s.
  - intros chk url_elem listing. unfold make_listing.
    destruct (ET.find "loc" url_elem) as [loc|]; [|done].
    destruct (ET.text loc) as [listing_url|]; [|done].
    destruct (parse_loc chk (Some listing_url)) as [parsed|]; [|done].
    by intros [= <-].
Qed.

(** The amended C6 on a text that is not a timestamp: the record keeps
    "soon" and has no local time. *)
Lemma convert_utc_to_est_spec_witness :
  convert_utc_to_est (Some "soon") = None
  ∧ ∃ listing,
      make_listing Examples.chk (Examples.url_elem Examples.oak_ave "soon")
      = Some listing
      ∧ last_modified listing = Some "soon"
      ∧ last_modified_est listing = None.
Proof.
  destruct convert_utc_to_est_spec as (_ & _ & _ & Hmalformed & Hraw).
  split.
  - apply (Hmalformed "soon"). vm_compute. reflexivity.
  - eexists. split; [vm_compute; reflexivity|].
    destruct (Hraw Examples.chk (Examples.url_elem Examples.oak_ave "soon") _
                ltac:(vm_compute; reflexivity)) as [Hkeep Hest].
    split; [exact Hkeep|exact Hest].
Defined.
End TimeConversion.

(** ** The output sink *)

Section OutputSink.
Import PyStr TimeConverter Extractor.







End OutputSink.

(** ** Listing the children of a sitemap index *)

Section Children.
Import ET Http Extractor.

(** C10 as stated: a decompression error gives the empty list. With a
    body that is not compressed, decompression fails and the children are
    returned all the same. *)
Lemma get_sitemap_children_survives_gzip_failure :
  (∀ body, Examples.gunzip body = NotGzip)
  ∧ (get_sitemap_children Examples.http_get Examples.gunzip
       Examples.fromstring Examples.index_url).1 ≠ [].
Proof. split; [done|]. vm_compute. discriminate. Qed.

Lemma raise_for_status_spec r :
  (400 ≤ status_code r < 600)%Z ↔ is_Some (raise_for_status r).
Proof.
  unfold raise_for_status. repeat case_bool_decide; split; intros Hr;
    try (by eexists); try lia; by destruct Hr.
Qed.

(** the children of the root are taken one by one, in document order *)
Lemma child_locs_cons t x c cs :
  child_locs (Elem t x (c :: cs))
  = (if bool_decide (tag c = ns +:+ "sitemap")
     then match find "loc" c with
          | Some loc => [ET.text loc]
          | None => []
          end
     else [])
    ++ child_locs (Elem t x cs).
Proof.
  unfold child_locs, findall. simpl. rewrite filter_cons.
  case_bool_decide as Htag.
  - rewrite decide_True by done. simpl. by destruct (find "loc" c).
  - by rewrite decide_False by done.
Qed.

(** C10, amended: [get_sitemap_children] always returns a list. The list
    is empty when the request raises, when the response has a status from
    400 to 599, and when the text to parse is not well-formed XML; that
    text is the decompressed body, or the body as it is when decompression
    fails. Otherwise the list holds the [<loc>] texts of the [<sitemap>]
    children of the root in document order, the children without [<loc>]
    skipped. *)
Theorem get_sitemap_children_spec :
  ∀ requests_get gunzip fromstring parent_url,
    let children :=
      (get_sitemap_children requests_get gunzip fromstring parent_url).1 in
    (∀ e, requests_get parent_url = GetRaises e → children = [])
    ∧ (∀ r, requests_get parent_url = GetResponse r
            → (400 ≤ status_code r < 600)%Z → children = [])
    ∧ (∀ r msg, requests_get parent_url = GetResponse r
                → fromstring (body_text gunzip r) = inr msg → children = [])
    ∧ (∀ r root, requests_get parent_url = GetResponse r
                 → ¬ (400 ≤ status_code r < 600)%Z
                 → fromstring (body_text gunzip r) = inl root
                 → children = child_locs root
                   ∧ ∀ t x c cs, root = Elem t x (c :: cs) →
                       child_locs root
                       = (if bool_decide (tag c = ns +:+ "sitemap")
                          then match find "loc" c with
                               | Some loc => [ET.text loc]
                               | None => []
                               end
                          else [])
                         ++ child_locs (Elem t x cs)).
Proof.
  intros requests_get gunzip fromstring parent_url children.
  subst children. unfold get_sitemap_children.
  split; [|split; [|split]].
  - by intros e ->.
  - intros r -> [e He]%raise_for_status_spec. by rewrite He.
  - intros r msg -> Hparse. destruct (raise_for_status r); [done|].
    by rewrite Hparse.
  - intros r root -> Hstatus Hparse.
    destruct (raise_for_status r) as [e|] eqn:He.
    + destruct Hstatus. apply raise_for_status_spec. by rewrite He.
    + rewrite Hparse. split; [done|].
      intros t x c cs ->. apply child_locs_cons.
Qed.

(** The amended C10 on a server that is down, a missing index, a broken
    document and an index of three entries, the second without [<loc>]. *)
Lemma get_sitemap_children_spec_witness :
  let children url :=
    (get_sitemap_children Examples.http_get Examples.gunzip
       Examples.fromstring url).1 in
  children Examples.down_url = []
  ∧ children Examples.gone_url = []
  ∧ children Examples.bad_url = []
  ∧ children Examples.index_url
    = [Some "https://www.zillow.com/xml/a.xml.gz";
       Some "https://www.zillow.com/xml/b.xml.gz"].
Proof.
  intros children. subst children. cbv beta.
  split; [|split; [|split]].
  - eapply (proj1 (get_sitemap_children_spec Examples.http_get
              Examples.gunzip Examples.fromstring Examples.down_url)).
    vm_compute. reflexivity.
  - eapply (proj1 (proj2 (get_sitemap_children_spec Examples.http_get
              Examples.gunzip Examples.fromstring Examples.gone_url))).
    + vm_compute. reflexivity.
    + simpl. lia.
  - eapply (proj1 (proj2 (proj2 (get_sitemap_children_spec Examples.http_get
              Examples.gunzip Examples.fromstring Examples.bad_url)))).
    + vm_compute. reflexivity.
    + vm_compute. reflexivity.
  - destruct (proj2 (proj2 (proj2 (get_sitemap_children_spec
                Examples.http_get Examples.gunzip Examples.fromstring
                Examples.index_url)))
                (mk_response 200 "OK" Examples.index_url Examples.index_xml
                   Examples.index_xml)
                Examples.index_root
                ltac:(vm_compute; reflexivity)
                ltac:(simpl; lia)
                ltac:(vm_compute; reflexivity)) as [-> _].
    vm_compute. reflexivity.
Defined.
End Children.

(** ** Deduplication in the extraction loop *)

Section Dedup.
Import ET Extractor.
#[local] Set Warnings "-clear-no-such-hyp".

Lemma select_cons_true {A} flags (x : A) l :
  select (true :: flags) (x :: l) = x :: select flags l.
Proof. reflexivity. Qed.

Lemma select_cons_false {A} flags (x : A) l :
  select (false :: flags) (x :: l) = select flags l.
Proof. reflexivity. Qed.

Lemma elem_of_select {A} flags (l : list A) x :
  x ∈ select flags l → ∃ i, flags !! i = Some true ∧ l !! i = Some x.
Proof.
  revert flags. induction l as [|y l IH]; intros [|[] flags] Hx;
    try by apply elem_of_nil in Hx.
  - rewrite select_cons_true in Hx. apply elem_of_cons in Hx as [->|Hx].
    + by exists 0.
    + destruct (IH _ Hx) as (i & ? & ?). by exists (S i).
  - rewrite select_cons_false in Hx.
    destruct (IH _ Hx) as (i & ? & ?). by exists (S i).
Qed.




End Dedup.

(** ** Decode failures *)

Section DecodeFailure.
Import PyStr Re UrlDecoder.



















End DecodeFailure.

(** ** Isolation of a job whose document is malformed *)

Section JobIsolation.
Import ET Http Extractor.

Variable check_bracketed_netloc : string → bool.
Variable session_get : string → http_result.
Variable gunzip : string → gzip_result.
Variable fromstring : string → Element + string.
Variable open_write : string → option exn.
Variables now_stamp now_hms now_iso : string.
Variable execution_time : nat.
Variable percent : nat → nat → Z.
Variable cfg : config.
(** the sitemaps before and after the one whose document is malformed *)
Variables pre post : list string.
Variable bad : string.


Lemma same_refl w : same w w.
Proof. done. Qed.


Lemma same_trans w1 w2 w3 : same w1 w2 → same w2 w3 → same w1 w3.
Proof. unfold same. by intros [-> ->] [-> ->]. Qed.

Lemma kept_refl w : kept w w.
Proof. done. Qed.

Lemma kept_trans w1 w2 w3 : kept w1 w2 → kept w2 w3 → kept w1 w3.
Proof.
  intros (Hf1 & Hl1 & He1) (Hf2 & Hl2 & He2).
  split; [by rewrite Hf2|]. split; [|by rewrite He2].
  intros x Hx. by apply Hl2, Hl1.
Qed.

(** *** Computations that only log *)


Lemma quiet_bind (c k : M unit) : quiet c → quiet k → quiet (c;; k).
Proof.
  intros Hc Hk w. unfold bind.
  destruct (Hc w) as (w1 & -> & Hs1 & Hk1).
  destruct (Hk w1) as (w2 & -> & Hs2 & Hk2).
  exists w2. split; [done|].
  split; [by eapply same_trans|by eapply kept_trans].
Qed.





(** *** Pairs of computations *)













(** *** The functions of the extractor under two lists of sitemaps *)









Local Abbreviation process cfg' :=
  (process_sitemap check_bracketed_netloc session_get gunzip fromstring
     open_write now_stamp now_hms percent cfg').
Local Abbreviation jobs_of cfg' :=
  (run_jobs check_bracketed_netloc session_get gunzip fromstring open_write
     now_stamp now_hms percent cfg').
Local Abbreviation run_of cfg' :=
  (run check_bracketed_netloc session_get gunzip fromstring open_write
     now_stamp now_hms now_iso execution_time percent cfg').
Local Abbreviation caught cfg' sitemap_url current total :=
  (try_except (process cfg' sitemap_url current total)
     (λ e, logger_error now_hms cfg' ("Error processing sitemap: " +:+ str e))).


(** *** Running a computation step by step *)







(** *** The job whose document is malformed *)

Variable r : response.
Variables content msg : string.
Hypothesis Hget : session_get bad = GetResponse r.
Hypothesis Hstatus : ¬ (400 ≤ status_code r < 600)%Z.
Hypothesis Hbody :
  match gunzip (Http.content r) with
  | GzText s => s = content
  | NotGzip => Http.text r = content
  | GzRaises _ => False
  end.
Hypothesis Hcontent : content ≠ "".
Hypothesis Hparse : fromstring content = inr msg.




(** the record the run logs for the job *)
Local Abbreviation parse_failure_record :=
  ("ERROR", "Error processing sitemap: " +:+ msg).





(** *** The run around its jobs *)





End JobIsolation.


(** * Further properties of the code *)

(** ** The logging handler *)

Section LogTail.
Import RunState.

Lemma last_last_n {A} (n : nat) (l : list A) :
  0 < n → last (PyStr.last_n n l) = last l.
Proof.
  intros Hn. unfold PyStr.last_n.
  destruct (decide (length l = 0)) as [Hl|Hl].
  { destruct l; [done|]. simpl in Hl. lia. }
  rewrite !last_lookup, lookup_drop, length_drop. f_equal. lia.
Qed.

(** X1: [WebUILogger.emit] leaves at most 200 entries whatever the length
    of the tail it finds, the new entry last and the oldest entries
    dropped, and changes nothing else of the run state. *)
Theorem emit_keeps_newest_entries :
  ∀ timestamp log_entry g,
    let entry := "[" +:+ timestamp +:+ "] " +:+ log_entry in
    let old := logs (extraction_status g) in
    let new := logs (extraction_status (emit timestamp log_entry g)) in
    length new = Nat.min 200 (S (length old))
    ∧ last new = Some entry
    ∧ (∃ dropped, old ++ [entry] = dropped ++ new)
    ∧ but_logs (emit timestamp log_entry g) = but_logs g
    ∧ extraction_paused (emit timestamp log_entry g) = extraction_paused g.
Proof.
  intros timestamp log_entry g entry old new. subst entry old new.
  unfold emit. destruct g as [st p]. unfold logs_append, on_status.
  cbn [extraction_status extraction_paused]. destruct st; cbn [logs set_logs].
  case_bool_decide as Hlen; cbn [extraction_status extraction_paused logs set_logs];
    rewrite length_app in Hlen; cbn [length] in Hlen.
  - rewrite length_last_n, last_last_n, last_snoc, length_app by lia.
    cbn [length]. split; [lia|].
    split; [done|]. split; [|done].
    eexists. unfold PyStr.last_n. symmetry. apply take_drop.
  - rewrite last_snoc, length_app. cbn [length].
    split; [lia|].
    split; [done|]. split; [by exists []|done].
Qed.
End LogTail.
